(** * Optimizer.py: the DOcplexcloud job orchestrator and its model source

    A shallow embedding of [src/Optimizer.py].  The two classes of the file,
    [ModelSource] and [Optimizer], become two modules.  Methods that mutate
    objects, create streams, print or talk to the solve service are written
    in a state-and-exception monad over a [World]: the orchestrator object,
    the table of stream objects ever created, and the traces of [close()],
    [execute], [delete_job] and [print] calls.  The solve service and the
    OPLCollector serialisation are not part of the file: they are fields of
    the class [Env].  The calls into the Python 2.7 standard library
    ([urllib], [fileinput], [os.path], [urlparse]) are written out as that
    library behaves on the arguments the file gives them. *)

From Stdlib Require Import Ascii String.
From stdpp Require Import base option list gmap strings.

(** ** Python values shared by both classes *)

Definition URL : Type := string.
Definition StreamId : Type := nat.
Definition JobId : Type := string.

(** The exceptions the file raises itself ([ValueError]), the ones the
    interpreter raises when a local variable is read before it is bound,
    when a global name is not bound, when an operator does not apply to its
    operands or [None] is indexed, and when an object lacks an attribute,
    the one a failed [assert] of the library raises, and whatever the
    client of the solve service raises. *)
Inductive exn : Type :=
| ValueError (msg : string)
| UnboundLocalError (var : string)
| NameError (name : string)
| TypeError (msg : string)
| AttributeError (attr : string)
| AssertionError (msg : string)
| ServiceError (msg : string).

Inductive result (A : Type) : Type :=
| Ok (a : A)
| Raise (e : exn).
Arguments Ok {A} a.
Arguments Raise {A} e.

(** docloud.status *)
Inductive JobExecutionStatus : Type :=
| CREATED | NOT_STARTED | RUNNING | INTERRUPTING | INTERRUPTED | FAILED | PROCESSED.

Inductive JobSolveStatus : Type :=
| UNKNOWN
| FEASIBLE_SOLUTION
| OPTIMAL_SOLUTION
| INFEASIBLE_SOLUTION
| UNBOUNDED_SOLUTION
| INFEASIBLE_OR_UNBOUNDED_SOLUTION.

(** What the attribute [solveStatus] can hold: the enumerant the constructor
    stores, or the result of [job_info.get('solveStatus')], which is [None]
    when the key is missing. *)
Inductive SolveStatusValue : Type :=
| Enumerant (s : JobSolveStatus)
| Reported (v : option string).

(** The stream-like objects of the file, by their identity in the world:
    a [fileinput.FileInput] over the objects it was given as files, and a
    [cStringIO.StringIO] with its buffer. *)
Inductive Stream : Type :=
| FileInput (files : list nat)
| StringIO (buf : string).

(** dict<String, StructType> *)
Abbreviation Schema := (gmap string string).
Abbreviation Data := (gmap string string).

(** An OPLCollector: its name, the schema it was constructed from and the
    tables it holds. *)
Record Collector : Type := mkCollector {
  c_name : string;
  c_schema : option Schema;
  c_data : Data
}.

(** The response of [JobClient.execute].  The file reads its [jobid],
    [solution] and [job_info], and calls [getJob().getFailureInfo()] on it:
    [r_getJob] is [None] for a response object without a [getJob] method,
    and otherwise holds what [getFailureInfo()] returns, [None] or an
    object with a message. *)
Record Response : Type := mkResponse {
  r_jobid : JobId;
  r_solution : string;
  r_job_info : gmap string string;
  r_getJob : option (option string)
}.

(** What a call to the solve service gives: an answer, or an error raised
    by the client library. *)
Inductive reply (A : Type) : Type :=
| Replies (a : A)
| Fails (msg : string).
Arguments Replies {A} a.
Arguments Fails {A} msg.

(** What the file leaves to its surroundings. *)
Class Env : Type := mkEnv {
  (* whether the session the file runs in has bound the name os, which the
     file uses and does not import *)
  os_bound : bool;
  (* JobClient.execute on the named inputs, each with the bytes read from its file *)
  svc_execute : list (string * string) → reply Response;
  (* JobClient.get_execution_status *)
  svc_get_execution_status : JobId → reply JobExecutionStatus;
  (* OPLCollector.toJSON: the text written to the JSON destination *)
  co_toJSON : Collector → string;
  (* OPLCollector(name, schema).setJsonSource(stream).fromJSON(): the tables read *)
  co_fromJSON : option Schema → string → Data
}.

(** ** Fragments *)

(** The ordered concatenation of fragments, first fragment first. *)
Definition concat_fragments (l : list string) : string :=
  foldr String.append "" l.

(** ** The world and its monad *)

Module ModelSourceObject.
Record t : Type := mk {
  name : string;
  dotMods : option (list URL);
  modelText : option (list string)
}.
End ModelSourceObject.

Record OptimizerObject : Type := mkOptimizer {
  name : string;
  model : option ModelSourceObject.t;
  resultDataModel : option Schema;
  attachments : gmap string URL;
  streamsRegistry : list StreamId;
  history : list Collector;
  credentials : option (string * string);
  solveStatus : SolveStatusValue;
  jobid : option JobId            (* unset until the first submission *)
}.

Record World : Type := mkWorld {
  self : OptimizerObject;
  heap : list Stream;                         (* stream objects, by identity *)
  closed : list StreamId;                     (* trace of close() calls *)
  submitted : list (list (string * string));  (* trace of execute calls *)
  deleted : list JobId;                       (* trace of delete_job calls *)
  stdout : list string                        (* trace of print calls *)
}.

Definition M (A : Type) : Type := World → result A * World.

Definition ret {A} (a : A) : M A := λ w, (Ok a, w).
Definition raise {A} (e : exn) : M A := λ w, (Raise e, w).
Definition bind {A B} (m : M A) (k : A → M B) : M B :=
  λ w, match m w with
       | (Ok a, w') => k a w'
       | (Raise e, w') => (Raise e, w')
       end.
Definition lift {A} (r : result A) : M A := λ w, (r, w).
Definition call {A} (r : reply A) : M A :=
  λ w, (match r with Replies a => Ok a | Fails msg => Raise (ServiceError msg) end, w).

Declare Scope py_scope.
Delimit Scope py_scope with py.
Notation "'let!' x ':=' m 'in' k" := (bind m (λ x, k))
  (at level 10, x name, m at level 100, k at level 200) : py_scope.
Notation "m ';;;' k" := (bind m (λ _, k))
  (at level 100, k at level 200, right associativity) : py_scope.
Open Scope py_scope.

Definition get_self : M OptimizerObject := λ w, (Ok (self w), w).

Definition set_self (f : OptimizerObject → OptimizerObject) : M unit :=
  λ w, (Ok tt, mkWorld (f (self w)) (heap w) (closed w) (submitted w) (deleted w) (stdout w)).

(** Creating a stream object gives it the next free identity. *)
Definition new_stream (s : Stream) : M StreamId :=
  λ w, (Ok (length (heap w)),
        mkWorld (self w) (heap w ++ [s]) (closed w) (submitted w) (deleted w) (stdout w)).

(** Writing into a StringIO replaces the buffer of that object. *)
Definition write_stream (i : StreamId) (text : string) : M unit :=
  λ w, (Ok tt,
        mkWorld (self w) (<[i := StringIO text]> (heap w)) (closed w)
                (submitted w) (deleted w) (stdout w)).

Definition getvalue (i : StreamId) : M string :=
  λ w, (Ok (match heap w !! i with Some (StringIO buf) => buf | _ => "" end), w).

Definition close (i : StreamId) : M unit :=
  λ w, (Ok tt,
        mkWorld (self w) (heap w) (closed w ++ [i]) (submitted w) (deleted w) (stdout w)).

Definition print (line : string) : M unit :=
  λ w, (Ok tt,
        mkWorld (self w) (heap w) (closed w) (submitted w) (deleted w) (stdout w ++ [line])).

Definition is_closed (w : World) (i : StreamId) : Prop := i ∈ closed w.

(** The bytes a stream object of the world delivers: those of the buffer
    of a StringIO. *)
Definition stream_bytes (w : World) (i : StreamId) : option string :=
  match heap w !! i with
  | Some (StringIO buf) => Some buf
  | _ => None
  end.

(** A [for] loop whose body may raise. *)
Fixpoint for_each {A} (l : list A) (body : A → M unit) : M unit :=
  match l with
  | [] => ret tt
  | x :: rest => body x ;;; for_each rest body
  end.

(** [urllib.FancyURLopener(x)]: the constructor takes its first argument as
    [proxies] and asserts that it has [has_key]; the file passes a URL, a
    string, so the assertion fails and no opener is created. *)
Definition FancyURLopener (proxies : URL) : M StreamId :=
  raise (AssertionError "proxies must be a mapping").

(** The generator [(urllib.FancyURLopener(f) for f in l)], run to its end
    as [tuple(files)] does. *)
Fixpoint openers (l : list URL) : M (list StreamId) :=
  match l with
  | [] => ret []
  | f :: rest =>
      let! opener := FancyURLopener f in
      let! others := openers rest in
      ret (opener :: others)
  end.

(** [fileinput.input(files)]: the files are collected into a tuple, then
    the FileInput object over them is created. *)
Definition fileinput_input (files : M (list StreamId)) : M StreamId :=
  let! collected := files in
  new_stream (FileInput collected).

(** Python truth of a list-valued argument: [None] and [[]] are false. *)
Definition truthy {A} (o : option (list A)) : bool :=
  match o with
  | Some (_ :: _) => true
  | _ => false
  end.

(** ** class ModelSource *)

Module ModelSource.
Import ModelSourceObject.

(** __init__ *)
Definition init (name : string) (dotMods : option (list URL))
    (modelText : option (list string)) : result t :=
  if bool_decide (dotMods = Some []) then Raise (ValueError "argument cannot be empty")
  else if bool_decide (modelText = Some []) then Raise (ValueError "argument cannot be empty")
  else Ok (mk name dotMods modelText).

Definition getName (m : t) : string := name m.

Definition isEmpty (m : t) : bool :=
  bool_decide (dotMods m = None) && bool_decide (modelText m = None).

(** The class defines neither [__nonzero__] nor [__len__]: in a condition
    every instance is true. *)
Definition truth (m : t) : bool := true.

Definition toStream (m : t) : M StreamId :=
  if truthy (dotMods m) then fileinput_input (openers (default [] (dotMods m)))
  else if truthy (modelText m) then
    new_stream (StringIO (String.concat "" (default [] (modelText m))))
  else raise (ValueError "model source is empty").
End ModelSource.

(** ** class Optimizer *)

Module Optimizer.
Section methods.
Context `{Env}.

Definition with_model (v : option ModelSourceObject.t) (o : OptimizerObject) :=
  mkOptimizer (name o) v (resultDataModel o) (attachments o) (streamsRegistry o)
              (history o) (credentials o) (solveStatus o) (jobid o).
Definition with_resultDataModel (v : option Schema) (o : OptimizerObject) :=
  mkOptimizer (name o) (model o) v (attachments o) (streamsRegistry o)
              (history o) (credentials o) (solveStatus o) (jobid o).
Definition with_attachments (v : gmap string URL) (o : OptimizerObject) :=
  mkOptimizer (name o) (model o) (resultDataModel o) v (streamsRegistry o)
              (history o) (credentials o) (solveStatus o) (jobid o).
Definition with_streamsRegistry (v : list StreamId) (o : OptimizerObject) :=
  mkOptimizer (name o) (model o) (resultDataModel o) (attachments o) v
              (history o) (credentials o) (solveStatus o) (jobid o).
Definition with_history (v : list Collector) (o : OptimizerObject) :=
  mkOptimizer (name o) (model o) (resultDataModel o) (attachments o) (streamsRegistry o)
              v (credentials o) (solveStatus o) (jobid o).
Definition with_solveStatus (v : SolveStatusValue) (o : OptimizerObject) :=
  mkOptimizer (name o) (model o) (resultDataModel o) (attachments o) (streamsRegistry o)
              (history o) (credentials o) v (jobid o).
Definition with_jobid (v : option JobId) (o : OptimizerObject) :=
  mkOptimizer (name o) (model o) (resultDataModel o) (attachments o) (streamsRegistry o)
              (history o) (credentials o) (solveStatus o) v.

(** [self.streamsRegistry.append(stream)] *)
Definition register (i : StreamId) : M unit :=
  set_self (λ o, with_streamsRegistry (streamsRegistry o ++ [i]) o).

Definition getName : M string := let! o := get_self in ret (name o).

(** Methods that end in [return self] give back the object of the world:
    the embedding returns nothing for them. *)
Definition setOPLModel (name : string) (dotMods : option (list URL))
    (modelText : option (list string)) : M unit :=
  let! o := get_self in
  match model o with
  | Some _ => raise (ValueError "model has already been set")
  | None =>
      let! m := lift (ModelSource.init name dotMods modelText) in
      set_self (with_model (Some m))
  end.

Definition setResultDataModel (resultDataModel' : option Schema) : M unit :=
  let! o := get_self in
  match resultDataModel o with
  | Some _ => raise (ValueError "results data model has already been defined")
  | None => set_self (with_resultDataModel resultDataModel')
  end.

(** [os.path.splitext(os.path.basename(urlparse(f)))[0]].  When the name
    [os] is not bound, looking it up raises NameError.  When it is,
    [urlparse(f)] is a ParseResult, a tuple, and [os.path.basename] calls
    [rfind] on it, which a tuple does not have.  Either way no stem comes
    back. *)
Definition fileName_of (f : URL) : M string :=
  if os_bound then raise (AttributeError "rfind") else raise (NameError "os").

(** The body of the loop of attachData. *)
Definition attach_one (f : URL) : M unit :=
  let! fileName := fileName_of f in
  let! o := get_self in
  match attachments o !! fileName with
  | Some _ => raise (ValueError (fileName +:+ " already attached"))
  | None => set_self (λ o, with_attachments (<[fileName := f]> (attachments o)) o)
  end.

Definition attachData (attachments' : option (list URL)) : M unit :=
  set_self (with_attachments ∅) ;;;
  match attachments' with
  | Some l => for_each l attach_one
  | None => ret tt
  end.

(** __init__; the [JobClient] it builds is the service of [Env], and
    building it indexes the credentials. *)
Definition init (problemName : string) (model' : option ModelSourceObject.t)
    (resultDataModel' : option Schema) (credentials' : option (string * string))
    (attachments' : list URL) : M unit :=
  set_self (λ o, mkOptimizer problemName model' resultDataModel' (attachments o)
                   (streamsRegistry o) (history o) (credentials o) (solveStatus o)
                   (jobid o)) ;;;
  attachData (Some attachments') ;;;
  set_self (with_streamsRegistry []) ;;;
  set_self (with_history []) ;;;
  set_self (λ o, mkOptimizer (name o) (model o) (resultDataModel o) (attachments o)
                   (streamsRegistry o) (history o) credentials' (solveStatus o)
                   (jobid o)) ;;;
  match credentials' with
  | None => raise (TypeError "'NoneType' object has no attribute '__getitem__'")
  | Some _ => ret tt
  end ;;;
  set_self (with_solveStatus (Enumerant UNKNOWN)).

(** What the client uploads for the named inputs: the bytes of each file. *)
Definition uploads (w : World) (inputs : list (string * StreamId)) : list (string * string) :=
  (λ '(n, i), (n, default "" (stream_bytes w i))) <$> inputs.

Definition execute (inputs : list (string * StreamId)) : M Response :=
  λ w, (match svc_execute (uploads w inputs) with
        | Replies r => Ok r
        | Fails msg => Raise (ServiceError msg)
        end,
        mkWorld (self w) (heap w) (closed w) (submitted w ++ [uploads w inputs])
                (deleted w) (stdout w)).

Definition get_execution_status (j : JobId) : M JobExecutionStatus :=
  call (svc_get_execution_status j).

Definition delete_job (j : JobId) : M unit :=
  λ w, (Ok tt,
        mkWorld (self w) (heap w) (closed w) (submitted w) (deleted w ++ [j]) (stdout w)).

Definition read (i : StreamId) : M string :=
  λ w, (Ok (default "" (stream_bytes w i)), w).

Definition get_jobid : M JobId :=
  let! o := get_self in
  match jobid o with
  | Some j => ret j
  | None => raise (AttributeError "jobid")
  end.

(** A [for] loop that appends to the local list [inputs]. *)
Fixpoint for_inputs {A} (l : list A) (inputs : list (string * StreamId))
    (body : A → M (string * StreamId)) : M (list (string * StreamId)) :=
  match l with
  | [] => ret inputs
  | x :: rest => let! input := body x in for_inputs rest (inputs ++ [input]) body
  end.

(** The body of the loop over [self.attachments]: [f] is the key and
    [url] is [self.attachments[f]].  The loop below visits the items in the
    order of [map_to_list]; a Python dict has an order of its own, but the
    body raises on the first item it is given, whichever that is. *)
Definition open_attachment (item : string * URL) : M (string * StreamId) :=
  let '(f, url) := item in
  let! stream := FancyURLopener url in
  register stream ;;;
  ret (f, stream).

(** solve, lines 151 to 168: the named inputs and their streams. *)
Definition assemble_inputs (inputData : option Collector) : M (list (string * StreamId)) :=
  let inputs := [] in
  let! o := get_self in
  match model o with
  | None => raise (ValueError "A model attachment must be provided to the optimizer")
  | Some m =>
      let! inputs :=
        (if ModelSource.truth m then
           let! stream := ModelSource.toStream m in
           register stream ;;;
           ret (inputs ++ [(ModelSource.getName m, stream)])
         else ret inputs) in
      let! inputs :=
        (if bool_decide (attachments o ≠ ∅) then
           for_inputs (map_to_list (attachments o)) inputs open_attachment
         else ret inputs) in
      match inputData with
      | Some d =>
          let! outStream := new_stream (StringIO "") in
          write_stream outStream (co_toJSON d) ;;;
          let! text := getvalue outStream in
          let! inStream := new_stream (StringIO text) in
          set_self (λ o, with_streamsRegistry (streamsRegistry o ++ [outStream; inStream]) o) ;;;
          ret (inputs ++ [(c_name d +:+ ".json", inStream)])
      | None => ret inputs
      end
  end.

(** [text + status]: the status is a member of the enumeration
    [JobExecutionStatus], not a string, and [str.__add__] refuses it. *)
Definition str_plus_status (text : string) (status : JobExecutionStatus) : M string :=
  raise (TypeError "cannot concatenate 'str' and 'JobExecutionStatus' objects").

(** solve, lines 182 to 197: the local [solution] is bound only in the
    first branch. *)
Definition map_results (response : Response) (status : JobExecutionStatus)
    (solutionId : string) : M (option Collector) :=
  match status with
  | PROCESSED =>
      let! results := new_stream (StringIO (r_solution response)) in
      register results ;;;
      set_self (with_solveStatus (Reported (r_job_info response !! "solveStatus"))) ;;;
      let! problem := getName in
      let! o := get_self in
      let! bytes := read results in
      let solution :=
        mkCollector (problem +:+ "Result" +:+ solutionId) (resultDataModel o)
                    (co_fromJSON (resultDataModel o) bytes) in
      set_self (λ o, with_history (history o ++ [solution]) o) ;;;
      ret (Some solution)
  | FAILED =>
      let! message :=
        match r_getJob response with
        | None => raise (AttributeError "getJob")
        | Some failureInfo => ret (default "" failureInfo)
        end in
      print ("Failed " +:+ message) ;;;
      ret None
  | _ =>
      let! line := str_plus_status "Job Status: " status in
      print line ;;;
      ret None
  end.

(** solve, lines 199 to 201 *)
Definition cleanup : M unit :=
  let! o := get_self in
  for_each (streamsRegistry o) close ;;;
  let! j := get_jobid in
  delete_job j.

Definition solve (inputData : option Collector) (solutionId : string) : M Collector :=
  let! inputs := assemble_inputs inputData in
  let! response := execute inputs in
  set_self (with_jobid (Some (r_jobid response))) ;;;
  let! j := get_jobid in
  let! status := get_execution_status j in
  let! solution := map_results response status solutionId in
  cleanup ;;;
  match solution with
  | Some s => ret s
  | None => raise (UnboundLocalError "solution")
  end.

Definition getSolveStatus : M SolveStatusValue :=
  let! o := get_self in ret (solveStatus o).

End methods.
End Optimizer.

(** ** Notions used to state the properties *)

Section notions.
Context `{Env}.

(** The world with another attachment dict and nothing else changed. *)
Definition put_attachments (a : gmap string URL) (w : World) : World :=
  mkWorld (Optimizer.with_attachments a (self w)) (heap w) (closed w) (submitted w)
          (deleted w) (stdout w).

(** The world after some stream objects were created and some identities
    were appended to the registry. *)
Definition extend (w : World) (streams : list Stream) (ids : list StreamId) : World :=
  mkWorld (Optimizer.with_streamsRegistry (streamsRegistry (self w) ++ ids) (self w))
          (heap w ++ streams) (closed w) (submitted w) (deleted w) (stdout w).

(** What the solve service answers during a solve call started in [w]:
    the response to the submission and the execution status of the job.
    There is none when the inputs cannot be assembled or a call to the
    service raises. *)
Definition service_answers (inputData : option Collector) (w : World)
    : option (Response * JobExecutionStatus) :=
  match Optimizer.assemble_inputs inputData w with
  | (Ok inputs, w1) =>
      match svc_execute (Optimizer.uploads w1 inputs) with
      | Replies response =>
          match svc_get_execution_status (r_jobid response) with
          | Replies status => Some (response, status)
          | Fails _ => None
          end
      | Fails _ => None
      end
  | (Raise _, _) => None
  end.

(** The result object of a processed solve: named
    <problem name>Result<solutionId>, built from the result data model and
    filled from the solution bytes. *)
Definition solution_of (w : World) (response : Response) (solutionId : string) : Collector :=
  mkCollector (name (self w) +:+ "Result" +:+ solutionId) (resultDataModel (self w))
              (co_fromJSON (resultDataModel (self w)) (r_solution response)).

(** What a solve call prints for a response and a status. *)
Definition report_of (response : Response) (status : JobExecutionStatus) : list string :=
  match status, r_getJob response with
  | FAILED, Some failureInfo => ["Failed " +:+ default "" failureInfo]
  | _, _ => []
  end.

(** Whether a solve call with this response and this status gets as far as
    its closing loop. *)
Definition reaches_cleanup (response : Response) (status : JobExecutionStatus) : bool :=
  match status, r_getJob response with
  | PROCESSED, _ => true
  | FAILED, Some _ => true
  | _, _ => false
  end.

(** The error of deriving a stem from a reference. *)
Definition stem_error : exn :=
  if os_bound then AttributeError "rfind" else NameError "os".
End notions.

(** ** Stub collaborators, for running the methods on concrete inputs *)

Module Stub.
Definition data_mod : URL := "http://host/models/data.mod".
Definition opt_mod : URL := "http://host/models/opt.mod".

Definition response : Response :=
  mkResponse "job-1" "{cost: 42.5}" {[ "solveStatus" := "OPTIMAL_SOLUTION" ]}
             (Some (Some "infeasible.")).

(** A service that gives the same answers to every call. *)
Definition env (exec : reply Response) (status : reply JobExecutionStatus) : Env :=
  mkEnv false (λ _, exec) (λ _, status) (λ _, "{}") (λ _ _, {[ "cost" := "42.5" ]}).

Definition processed : Env := env (Replies response) (Replies PROCESSED).
Definition failed : Env := env (Replies response) (Replies FAILED).
Definition running : Env := env (Replies response) (Replies RUNNING).

Definition diet_model : ModelSourceObject.t :=
  ModelSourceObject.mk "Diet.mod" None (Some ["param n; ..."]).

Definition diet : OptimizerObject :=
  mkOptimizer "Diet" (Some diet_model) (Some {[ "cost" := "float" ]}) ∅ [] []
              (Some ("https://api", "key")) (Enumerant UNKNOWN) None.

Definition world (o : OptimizerObject) : World := mkWorld o [] [] [] [] [].

(** An orchestrator whose model source has neither references nor texts. *)
Definition hollow_model : ModelSourceObject.t :=
  ModelSourceObject.mk "Hollow.mod" None None.

Definition hollow : OptimizerObject :=
  mkOptimizer "Diet" (Some hollow_model) (Some {[ "cost" := "float" ]}) ∅ [] []
              (Some ("https://api", "key")) (Enumerant UNKNOWN) None.

(** A response whose job information has no solve status. *)
Definition silent_response : Response := mkResponse "job-2" "{}" ∅ None.
Definition silent : Env := env (Replies silent_response) (Replies PROCESSED).
End Stub.

(** ** Notions used by the further properties *)

Section further_notions.
Context `{Env}.

(** A model source that toStream can materialise: it has texts and no
    references. *)
Definition text_model (m : ModelSourceObject.t) : bool :=
  negb (truthy (ModelSourceObject.dotMods m)) && truthy (ModelSourceObject.modelText m).

(** The bytes of a model given as texts: the texts, in order. *)
Definition model_body (m : ModelSourceObject.t) : string :=
  concat_fragments (default [] (ModelSourceObject.modelText m)).

(** The named inputs of a submission, each with its bytes: the model, then
    the variable input. *)
Definition expected_uploads (m : ModelSourceObject.t) (d : option Collector)
    : list (string * string) :=
  (ModelSourceObject.name m, model_body m)
  :: match d with
     | Some c => [(c_name c +:+ ".json", co_toJSON c)]
     | None => []
     end.

(** The stream objects a solve call creates for its inputs, in the order
    it creates them: the model, the buffer the variable input is written to
    and the stream that is read back. *)
Definition opened_streams (m : ModelSourceObject.t) (d : option Collector) : list Stream :=
  StringIO (String.concat "" (default [] (ModelSourceObject.modelText m)))
  :: match d with
     | Some c => [StringIO (co_toJSON c); StringIO (co_toJSON c)]
     | None => []
     end.

(** The local list [inputs] at the submission, when the first stream
    created has the identity [n0]. *)
Definition named_inputs (n0 : nat) (m : ModelSourceObject.t) (d : option Collector)
    : list (string * StreamId) :=
  (ModelSourceObject.name m, n0)
  :: match d with
     | Some c => [(c_name c +:+ ".json", n0 + 2)]
     | None => []
     end.

(** The attributes that configure the orchestrator are the same. *)
Definition same_configuration (o o' : OptimizerObject) : Prop :=
  name o' = name o ∧ model o' = model o ∧ resultDataModel o' = resultDataModel o ∧
  attachments o' = attachments o ∧ credentials o' = credentials o.

(** The second world continues the first: the configuration is the same,
    and the registry, the history, the stream objects and the traces have
    only been added to at their end. *)
Definition grows (w w' : World) : Prop :=
  same_configuration (self w) (self w') ∧
  streamsRegistry (self w) `prefix_of` streamsRegistry (self w') ∧
  history (self w) `prefix_of` history (self w') ∧
  heap w `prefix_of` heap w' ∧
  closed w `prefix_of` closed w' ∧
  submitted w `prefix_of` submitted w' ∧
  deleted w `prefix_of` deleted w' ∧
  stdout w `prefix_of` stdout w'.
End further_notions.

(** ** Further orchestrators to run the methods on *)

Module Scenario.
(** An orchestrator that was given neither a model nor a result data model. *)
Definition bare : OptimizerObject :=
  mkOptimizer "Diet" None None ∅ [] [] (Some ("https://api", "key")) (Enumerant UNKNOWN) None.

Definition references : list URL :=
  ["http://host/data/foods.dat"; "http://host/data/limits.json"].

(** Two references meant to derive the same stem, [foods]. *)
Definition twins : list URL :=
  ["http://host/data/foods.dat"; "http://host/archive/foods.json"].

(** Variable input. *)
Definition columns : Collector := mkCollector "DietColumns" None ∅.
End Scenario.

(** * Properties *)

(** ** Fragments and streams *)

Lemma string_app_nil_r (x : string) : x +:+ "" = x.
Proof.
  induction x as [|c x IH]; [reflexivity |].
  change (String c (x +:+ "") = String c x). by rewrite IH.
Qed.

Lemma concat_empty_cons (x : string) (xs : list string) :
  String.concat "" (x :: xs) = x +:+ String.concat "" xs.
Proof.
  destruct xs as [|y ys]; [| reflexivity].
  cbn [String.concat]. by rewrite string_app_nil_r.
Qed.

Lemma concat_empty_fragments (l : list string) :
  String.concat "" l = concat_fragments l.
Proof.
  induction l as [|x l IH]; [reflexivity |].
  rewrite concat_empty_cons, IH. reflexivity.
Qed.

Lemma new_stream_bytes (buf : string) (w : World) :
  stream_bytes (new_stream (StringIO buf) w).2 (length (heap w)) = Some buf.
Proof.
  unfold stream_bytes, new_stream. cbn [snd heap].
  by rewrite list_lookup_middle.
Qed.

(** The generator of openers raises on its first reference. *)
Lemma openers_raise (l : list URL) (w : World) :
  l ≠ [] → openers l w = (Raise (AssertionError "proxies must be a mapping"), w).
Proof. destruct l as [|f l]; [done | reflexivity]. Qed.

(** What toStream does, by the fragments of the model source. *)
Lemma toStream_run (m : ModelSourceObject.t) (w : World) :
  ModelSource.toStream m w
  = if truthy (ModelSourceObject.dotMods m)
    then (Raise (AssertionError "proxies must be a mapping"), w)
    else if truthy (ModelSourceObject.modelText m)
    then new_stream (StringIO (String.concat "" (default [] (ModelSourceObject.modelText m)))) w
    else (Raise (ValueError "model source is empty"), w).
Proof.
  unfold ModelSource.toStream.
  destruct (ModelSourceObject.dotMods m) as [[|f l]|]; cbn [truthy]; try reflexivity.
  all: destruct (truthy (ModelSourceObject.modelText m)); reflexivity.
Qed.

(** ** ModelSource *)

Section model_source.
Import ModelSourceObject.

(** C6, the code on its three kinds of model source, for a non-empty
    fragment list [l].  Built from [l] as external references, toStream
    raises the AssertionError of the first [urllib.FancyURLopener(f)] and
    creates no stream: this is where the code departs from the
    specification.  Built from [l] as literal text, it creates a stream
    whose bytes are the texts concatenated in order.  With neither list it
    raises [model source is empty]. *)
Theorem toStream_outcomes (n : string) (w : World) :
  (∀ l : list string, l ≠ [] →
     (∃ m, ModelSource.init n (Some l) None = Ok m ∧
        ModelSource.toStream m w
        = (Raise (AssertionError "proxies must be a mapping"), w))
     ∧ (∃ m, ModelSource.init n None (Some l) = Ok m ∧
        ∃ i w', ModelSource.toStream m w = (Ok i, w') ∧
          stream_bytes w' i = Some (concat_fragments l)))
  ∧ (∃ m, ModelSource.init n None None = Ok m ∧
     ModelSource.toStream m w = (Raise (ValueError "model source is empty"), w)).
Proof.
  split.
  - intros l Hl. destruct l as [|x l]; [done |]. split.
    + eexists. split; reflexivity.
    + eexists. split; [reflexivity |].
      exists (length (heap w)), (new_stream (StringIO (String.concat "" (x :: l))) w).2.
      split; [reflexivity |].
      by rewrite new_stream_bytes, concat_empty_fragments.
  - eexists. split; reflexivity.
Qed.

(** C8, the code on a model source given both a non-empty list of
    references and a non-empty list of texts: it is constructed without
    error and keeps both lists; toStream takes the branch of the references,
    never looks at the texts, and there raises the AssertionError of the
    first [urllib.FancyURLopener(f)] instead of concatenating the
    referenced fragments. *)
Theorem toStream_prefers_dotMods (n : string) (refs : list URL) (texts : list string)
    (w : World) :
  refs ≠ [] → texts ≠ [] →
  ∃ m, ModelSource.init n (Some refs) (Some texts) = Ok m ∧
    dotMods m = Some refs ∧ modelText m = Some texts ∧
    ModelSource.toStream m w = (Raise (AssertionError "proxies must be a mapping"), w).
Proof.
  intros Hr Ht. destruct refs as [|r refs]; [done |]. destruct texts as [|t texts]; [done |].
  eexists. split; [reflexivity |]. do 2 (split; [reflexivity |]). reflexivity.
Qed.
End model_source.

Lemma toStream_outcomes_witness :
  [Stub.data_mod; Stub.opt_mod] ≠ [] ∧
  ModelSource.toStream (ModelSourceObject.mk "Diet.mod" (Some [Stub.data_mod; Stub.opt_mod]) None)
                       (Stub.world Stub.diet)
  = (Raise (AssertionError "proxies must be a mapping"), Stub.world Stub.diet) ∧
  ∃ i w',
    ModelSource.toStream (ModelSourceObject.mk "Diet.mod" None (Some ["param n;"; " minimize n;"]))
                         (Stub.world Stub.diet) = (Ok i, w') ∧
    stream_bytes w' i = Some "param n; minimize n;".
Proof.
  split; [done |].
  destruct (toStream_outcomes "Diet.mod" (Stub.world Stub.diet)) as [Hlists _].
  split.
  - destruct (Hlists [Stub.data_mod; Stub.opt_mod]) as ((m & Hm & Hrun) & _); [done |].
    injection Hm as <-. exact Hrun.
  - destruct (Hlists ["param n;"; " minimize n;"]) as (_ & m & Hm & i & w' & Hrun & Hbytes);
      [done |].
    injection Hm as <-. exists i, w'. split; [exact Hrun | exact Hbytes].
Defined.

Lemma toStream_prefers_dotMods_witness :
  [Stub.data_mod; Stub.opt_mod] ≠ [] ∧ ["param n;"] ≠ [] ∧
  ∃ m, ModelSource.init "Diet.mod" (Some [Stub.data_mod; Stub.opt_mod]) (Some ["param n;"]) = Ok m ∧
    ModelSource.toStream m (Stub.world Stub.diet)
    = (Raise (AssertionError "proxies must be a mapping"), Stub.world Stub.diet).
Proof.
  split; [done |]. split; [done |].
  destruct (toStream_prefers_dotMods "Diet.mod" [Stub.data_mod; Stub.opt_mod]
              ["param n;"] (Stub.world Stub.diet)) as (m & Hm & _ & _ & Hrun);
    [done | done |].
  exists m. split; [exact Hm | exact Hrun].
Defined.

(** ** Configuration of the orchestrator *)

Section configuration.
Context `{Env}.

(** C5: on an orchestrator whose model is set, setOPLModel raises
    [model has already been set]; on one whose result data model is set,
    setResultDataModel raises [results data model has already been
    defined]; in both cases nothing of the world changes, so the value set
    before is still there. *)
Theorem set_twice_fails (w : World) :
  (∀ m, model (self w) = Some m → ∀ n dotMods modelText,
     Optimizer.setOPLModel n dotMods modelText w
     = (Raise (ValueError "model has already been set"), w))
  ∧ (∀ s, resultDataModel (self w) = Some s → ∀ s',
     Optimizer.setResultDataModel s' w
     = (Raise (ValueError "results data model has already been defined"), w)).
Proof.
  split.
  - intros m Hm n dm mt. unfold Optimizer.setOPLModel, bind, get_self. by rewrite Hm.
  - intros s Hs s'. unfold Optimizer.setResultDataModel, bind, get_self. by rewrite Hs.
Qed.

Lemma put_attachments_twice (a b : gmap string URL) (w : World) :
  put_attachments a (put_attachments b w) = put_attachments a w.
Proof. reflexivity. Qed.

Lemma fileName_of_run (f : URL) (w : World) :
  Optimizer.fileName_of f w = (Raise stem_error, w).
Proof. unfold Optimizer.fileName_of, stem_error. by destruct os_bound. Qed.

(** The loop of attachData raises on its first reference, at the derivation
    of the stem, before it reads or writes the dict. *)
Lemma attach_loop (l : list URL) (w : World) :
  for_each l Optimizer.attach_one w
  = (match l with [] => Ok () | _ :: _ => Raise stem_error end, w).
Proof.
  destruct l as [|f l]; [reflexivity |].
  cbn [for_each]. unfold bind at 1. unfold Optimizer.attach_one, bind.
  by rewrite fileName_of_run.
Qed.

(** attachData leaves a world that differs from the one it started in by
    the attachment dict alone, which it leaves empty. *)
Lemma attachData_run (a : option (list URL)) (w : World) :
  Optimizer.attachData a w
  = (match default [] a with [] => Ok () | _ :: _ => Raise stem_error end,
     put_attachments ∅ w).
Proof.
  unfold Optimizer.attachData, bind, set_self. destruct a as [l|]; [| reflexivity].
  rewrite attach_loop. cbn [default]. by destruct l.
Qed.

(** C4, the code on a non-empty reference list, as is every list in which
    two references are meant to derive the same stem: attachData empties the
    dict, then raises on the first reference, at the derivation of its stem
    and before any test for a duplicate.  The error is the NameError of the
    unbound name [os] or, when the name is bound, the AttributeError of
    [os.path.basename] on a ParseResult; it is never the ValueError
    [<stem> already attached].  The dict is left empty and nothing else of
    the world changes. *)
Theorem attachData_stem_error (refs : list URL) (w : World) :
  refs ≠ [] →
  Optimizer.attachData (Some refs) w = (Raise stem_error, put_attachments ∅ w) ∧
  (stem_error = NameError "os" ∨ stem_error = AttributeError "rfind").
Proof.
  intros Hrefs. split.
  - rewrite attachData_run. cbn [default]. by destruct refs.
  - unfold stem_error. destruct os_bound; [by right | by left].
Qed.

End configuration.

(** ** One solve call *)

Lemma insert_last {A} (l : list A) (x y : A) : <[length l := x]> (l ++ [y]) = l ++ [x].
Proof.
  rewrite insert_app_r_alt by done. by rewrite Nat.sub_diag.
Qed.

Lemma lookup_last {A} (l : list A) (x : A) : (l ++ [x]) !! length l = Some x.
Proof. by rewrite list_lookup_middle. Qed.

Lemma close_all (l : list StreamId) (w : World) :
  for_each l close w
  = (Ok (), mkWorld (self w) (heap w) (closed w ++ l) (submitted w) (deleted w) (stdout w)).
Proof.
  revert w. induction l as [|i l IH]; intros w.
  - destruct w. cbn. by rewrite app_nil_r.
  - cbn [for_each]. unfold bind, close at 1. rewrite IH. cbn. by rewrite <- app_assoc.
Qed.

(** The steps of a solve call after the status query, run on a world in
    which the job identifier is set. *)
Ltac run_results :=
  unfold Optimizer.map_results, Optimizer.cleanup, Optimizer.get_jobid, Optimizer.read,
    Optimizer.getName, Optimizer.str_plus_status, stream_bytes, bind;
  cbn [set_self get_self new_stream print Optimizer.register ret raise extend
       self heap closed submitted deleted stdout
       Optimizer.with_jobid Optimizer.with_streamsRegistry Optimizer.with_history
       Optimizer.with_solveStatus
       name model resultDataModel attachments streamsRegistry history credentials
       solveStatus jobid];
  rewrite ?lookup_last, ?close_all;
  cbn [Optimizer.delete_job self heap closed submitted deleted stdout
       name model resultDataModel attachments streamsRegistry history credentials
       solveStatus jobid default from_option id snd].

Section solve.
Context `{Env}.

(** The loop over the attachments raises on its first item, whichever it
    is, and leaves the world as it found it. *)
Lemma for_inputs_raise (l : list (string * URL)) (inputs : list (string * StreamId))
    (w : World) :
  l ≠ [] →
  Optimizer.for_inputs l inputs Optimizer.open_attachment w
  = (Raise (AssertionError "proxies must be a mapping"), w).
Proof. destruct l as [|[f url] l]; [done | reflexivity]. Qed.

(** The assembling of the inputs, case by case. *)
Lemma assemble_inputs_run (d : option Collector) (w : World) :
  Optimizer.assemble_inputs d w
  = match model (self w) with
    | None => (Raise (ValueError "A model attachment must be provided to the optimizer"), w)
    | Some m =>
        if truthy (ModelSourceObject.dotMods m)
        then (Raise (AssertionError "proxies must be a mapping"), w)
        else if truthy (ModelSourceObject.modelText m)
        then if bool_decide (attachments (self w) = ∅)
             then (Ok (named_inputs (length (heap w)) m d),
                   extend w (opened_streams m d)
                     (seq (length (heap w)) (length (opened_streams m d))))
             else (Raise (AssertionError "proxies must be a mapping"),
                   extend w [StringIO (String.concat ""
                                         (default [] (ModelSourceObject.modelText m)))]
                            [length (heap w)])
        else (Raise (ValueError "model source is empty"), w)
    end.
Proof.
  unfold Optimizer.assemble_inputs, ModelSource.truth, bind at 1, get_self.
  destruct (model (self w)) as [m|]; [| reflexivity].
  unfold bind at 1, bind at 1. rewrite toStream_run.
  destruct (truthy (ModelSourceObject.dotMods m)); [reflexivity |].
  destruct (truthy (ModelSourceObject.modelText m)); [| reflexivity].
  unfold bind.
  cbn [new_stream Optimizer.register set_self ret self heap closed submitted deleted stdout
       attachments Optimizer.with_streamsRegistry].
  destruct (decide (attachments (self w) = ∅)) as [Hempty|Hsome].
  - rewrite (bool_decide_eq_true_2 _ Hempty).
    rewrite bool_decide_eq_false_2 by (by intros []).
    destruct d as [c|];
      cbn [write_stream getvalue new_stream ret set_self self heap closed submitted deleted
           stdout Optimizer.with_streamsRegistry streamsRegistry];
      rewrite ?insert_last, ?lookup_last;
      unfold named_inputs, opened_streams, extend;
      cbn [self heap closed submitted deleted stdout Optimizer.with_streamsRegistry
           streamsRegistry name model resultDataModel attachments history credentials
           solveStatus jobid ModelSource.getName length seq];
      rewrite ?length_app; cbn [length app]; rewrite <- ?app_assoc; cbn [app].
    + replace (length (heap w) + 1 + 1) with (S (S (length (heap w)))) by lia.
      replace (length (heap w) + 1) with (S (length (heap w))) by lia.
      replace (length (heap w) + 2) with (S (S (length (heap w)))) by lia.
      reflexivity.
    + reflexivity.
  - rewrite (bool_decide_eq_false_2 _ Hsome).
    rewrite (bool_decide_eq_true_2 (attachments (self w) ≠ ∅)) by done.
    rewrite for_inputs_raise; [reflexivity |].
    by rewrite map_to_list_empty_iff.
Qed.

(** When the inputs are assembled, the model is a text model and nothing is
    attached. *)
Lemma assemble_inputs_explicit (d : option Collector) (w w1 : World)
    (inputs : list (string * StreamId)) :
  Optimizer.assemble_inputs d w = (Ok inputs, w1) →
  ∃ m, model (self w) = Some m ∧ text_model m = true ∧ attachments (self w) = ∅ ∧
    inputs = named_inputs (length (heap w)) m d ∧
    w1 = extend w (opened_streams m d) (seq (length (heap w)) (length (opened_streams m d))).
Proof.
  rewrite assemble_inputs_run. unfold text_model.
  destruct (model (self w)) as [m|]; [| discriminate].
  destruct (truthy (ModelSourceObject.dotMods m)) eqn:Hrefs; [discriminate |].
  destruct (truthy (ModelSourceObject.modelText m)) eqn:Htexts; [| discriminate].
  case_bool_decide as Hempty; [| discriminate].
  intros Heq. injection Heq as <- <-. exists m. by rewrite Hrefs, Htexts.
Qed.

(** The inputs are assembled without closing, submitting, deleting or
    printing anything: streams are created and their identities recorded,
    the stream of the model among them. *)
Lemma assemble_inputs_ok (d : option Collector) (w w1 : World)
    (inputs : list (string * StreamId)) :
  Optimizer.assemble_inputs d w = (Ok inputs, w1) →
  ∃ streams ids, ids ≠ [] ∧ w1 = extend w streams ids.
Proof.
  intros Ha. apply assemble_inputs_explicit in Ha as (m & _ & _ & _ & _ & ->).
  eexists _, _. split; [| reflexivity]. unfold opened_streams. cbn [length seq]. discriminate.
Qed.

(** When assembling raises, the world is the one the call started in, or
    that world with the stream of the model created and recorded. *)
Lemma assemble_inputs_raise (d : option Collector) (w w1 : World) (e : exn) :
  Optimizer.assemble_inputs d w = (Raise e, w1) →
  w1 = w ∨ ∃ s, w1 = extend w [s] [length (heap w)].
Proof.
  rewrite assemble_inputs_run.
  destruct (model (self w)) as [m|]; [| intros [= _ <-]; by left].
  destruct (truthy (ModelSourceObject.dotMods m)); [intros [= _ <-]; by left |].
  destruct (truthy (ModelSourceObject.modelText m)); [| intros [= _ <-]; by left].
  case_bool_decide; [discriminate |]. intros [= _ <-]. right. by eexists.
Qed.

(** What a solve call does once the service has answered both the
    submission and the status query. *)
Lemma solve_run (d : option Collector) (sid : string) (w : World)
    (response : Response) (status : JobExecutionStatus) :
  service_answers d w = Some (response, status) →
  ∃ ids w', ids ≠ [] ∧
    Optimizer.solve d sid w
    = (match status, r_getJob response with
       | PROCESSED, _ => Ok (solution_of w response sid)
       | FAILED, Some _ => Raise (UnboundLocalError "solution")
       | FAILED, None => Raise (AttributeError "getJob")
       | _, _ => Raise (TypeError "cannot concatenate 'str' and 'JobExecutionStatus' objects")
       end, w') ∧
    streamsRegistry (self w') = streamsRegistry (self w) ++ ids ∧
    closed w'
    = closed w ++ (if reaches_cleanup response status then streamsRegistry (self w') else []) ∧
    deleted w'
    = deleted w ++ (if reaches_cleanup response status then [r_jobid response] else []) ∧
    jobid (self w') = Some (r_jobid response) ∧
    history (self w')
    = history (self w) ++ match status with
                          | PROCESSED => [solution_of w response sid]
                          | _ => []
                          end ∧
    solveStatus (self w')
    = match status with
      | PROCESSED => Reported (r_job_info response !! "solveStatus")
      | _ => solveStatus (self w)
      end ∧
    stdout w' = stdout w ++ report_of response status.
Proof.
  unfold service_answers.
  destruct (Optimizer.assemble_inputs d w) as [[inputs|e] w1] eqn:Ha; [| discriminate].
  destruct (svc_execute (Optimizer.uploads w1 inputs)) as [resp|] eqn:He; [| discriminate].
  destruct (svc_get_execution_status (r_jobid resp)) as [st|] eqn:Hs; [| discriminate].
  intros [= -> ->].
  apply assemble_inputs_ok in Ha as Hw1. destruct Hw1 as (streams & ids & Hids & ->).
  unfold Optimizer.solve, bind. rewrite Ha. unfold Optimizer.execute. rewrite He.
  unfold Optimizer.get_jobid, Optimizer.get_execution_status, call, bind.
  cbn [set_self get_self self jobid Optimizer.with_jobid ret]. rewrite Hs.
  unfold reaches_cleanup, report_of, Optimizer.map_results.
  destruct status; try destruct (r_getJob response) as [info|].
  all: run_results.
  all: first
    [ exists ids; eexists; split; [done |]; split; [reflexivity |];
      cbn; rewrite ?app_nil_r, <- ?app_assoc; repeat split; done
    | exists (ids ++ [length (heap w ++ streams)]); eexists;
      split; [by destruct ids |]; split; [reflexivity |];
      cbn; rewrite ?app_nil_r, <- ?app_assoc; repeat split; done ].
Qed.

(** A solve call whose inputs cannot be assembled ends there, with the
    error and in the world of the assembling. *)
Lemma solve_not_assembled (d : option Collector) (sid : string) (w w1 : World) (e : exn) :
  Optimizer.assemble_inputs d w = (Raise e, w1) →
  Optimizer.solve d sid w = (Raise e, w1).
Proof. intros Ha. unfold Optimizer.solve, bind. by rewrite Ha. Qed.

(** A solve call in which the submission or the status query raises ends
    with that error: the streams of the call stay recorded, no [close()]
    and no [delete_job] is called. *)
Lemma solve_service_raises (d : option Collector) (sid : string) (w w1 : World)
    (inputs : list (string * StreamId)) :
  Optimizer.assemble_inputs d w = (Ok inputs, w1) →
  service_answers d w = None →
  ∃ msg ids w', ids ≠ [] ∧
    Optimizer.solve d sid w = (Raise (ServiceError msg), w') ∧
    streamsRegistry (self w') = streamsRegistry (self w) ++ ids ∧
    closed w' = closed w ∧
    deleted w' = deleted w ∧
    history (self w') = history (self w) ∧
    solveStatus (self w') = solveStatus (self w).
Proof.
  intros Ha. unfold service_answers. rewrite Ha.
  apply assemble_inputs_ok in Ha as Hw1. destruct Hw1 as (streams & ids & Hids & ->).
  unfold Optimizer.solve, bind. rewrite Ha. unfold Optimizer.execute.
  destruct (svc_execute _) as [response|msg] eqn:He.
  - unfold Optimizer.get_jobid, Optimizer.get_execution_status, call, bind.
    cbn [set_self get_self self jobid Optimizer.with_jobid ret].
    destruct (svc_get_execution_status _) as [status|msg]; [discriminate |].
    intros _. exists msg, ids. eexists. split; [done |]. split; [reflexivity |]. done.
  - intros _. exists msg, ids. eexists. split; [done |]. split; [reflexivity |]. done.
Qed.



(** C9: when the model of the orchestrator is a model source with neither
    references nor texts, solve raises [model source is empty] and leaves
    the world as it was: no stream is created and nothing is submitted. *)
Theorem solve_empty_model (d : option Collector) (sid : string) (w : World)
    (m : ModelSourceObject.t) :
  model (self w) = Some m →
  ModelSource.isEmpty m = true →
  Optimizer.solve d sid w = (Raise (ValueError "model source is empty"), w) ∧
  submitted (Optimizer.solve d sid w).2 = submitted w.
Proof.
  intros Hm Hempty. apply andb_true_iff in Hempty as [Hd Ht].
  apply bool_decide_eq_true in Hd, Ht.
  assert (Optimizer.solve d sid w = (Raise (ValueError "model source is empty"), w)) as Hrun.
  { apply solve_not_assembled. rewrite assemble_inputs_run, Hm, Hd, Ht. reflexivity. }
  by rewrite Hrun.
Qed.

Lemma init_run (problemName : string) (m : option ModelSourceObject.t)
    (r : option Schema) (c : option (string * string)) (l : list URL) (w w' : World) :
  Optimizer.init problemName m r c l w = (Ok (), w') →
  solveStatus (self w') = Enumerant UNKNOWN ∧
  streamsRegistry (self w') = [] ∧ history (self w') = [].
Proof.
  unfold Optimizer.init, bind at 1, set_self at 1. unfold bind at 1.
  rewrite attachData_run. cbn [default from_option id].
  destruct l as [|f l]; cbn [fst snd]; [| discriminate].
  destruct c as [c|]; [| discriminate].
  intros [= <-]. done.
Qed.

(** C10: the attribute [solveStatus] is UNKNOWN once the constructor has
    run; a solve call leaves it as it was unless the execution status of
    the job is PROCESSED, and then stores what the job information holds
    under the key [solveStatus], which is [None] when the key is missing. *)
Theorem solveStatus_frame (d : option Collector) (sid : string) (w : World) :
  solveStatus (self (Optimizer.solve d sid w).2)
  = match service_answers d w with
    | Some (response, PROCESSED) => Reported (r_job_info response !! "solveStatus")
    | _ => solveStatus (self w)
    end
  ∧ (∀ problemName m r c l w0, Optimizer.init problemName m r c l w0 = (Ok (), w) →
     solveStatus (self w) = Enumerant UNKNOWN).
Proof.
  split.
  - destruct (service_answers d w) as [[response status]|] eqn:Hans.
    + destruct (solve_run d sid w response status Hans)
        as (ids & w' & _ & Hrun & _ & _ & _ & _ & _ & Hst & _).
      rewrite Hrun. cbn [snd]. rewrite Hst. by destruct status.
    + destruct (Optimizer.assemble_inputs d w) as [[inputs|e] w1] eqn:Ha.
      * destruct (solve_service_raises d sid w w1 inputs Ha Hans)
          as (msg & ids & w' & _ & Hrun & _ & _ & _ & _ & Hst).
        by rewrite Hrun.
      * rewrite (solve_not_assembled d sid w w1 e Ha). cbn [snd].
        by destruct (assemble_inputs_raise d w w1 e Ha) as [->|[s ->]].
  - intros problemName m r c l w0 Hinit. by apply init_run in Hinit as [? _].
Qed.

(** When the execution status is FAILED and the response gives its job,
    solve prints the failure message, closes the streams and deletes the
    job, and then reads the local [solution], which was never bound. *)
Lemma solve_failed_unbound (d : option Collector) (sid : string) (w : World)
    (response : Response) (failureInfo : option string) :
  service_answers d w = Some (response, FAILED) →
  r_getJob response = Some failureInfo →
  ∃ w', Optimizer.solve d sid w = (Raise (UnboundLocalError "solution"), w') ∧
    stdout w' = stdout w ++ ["Failed " +:+ default "" failureInfo] ∧
    closed w' = closed w ++ streamsRegistry (self w') ∧
    deleted w' = deleted w ++ [r_jobid response].
Proof.
  intros Hans Hjob.
  destruct (solve_run d sid w response FAILED Hans)
    as (ids & w' & _ & Hrun & _ & Hclosed & Hdel & _ & _ & _ & Hout).
  unfold reaches_cleanup, report_of in *. rewrite Hjob in *.
  by exists w'.
Qed.
End solve.

(** ** The methods run against the stub collaborators *)

Lemma set_twice_fails_witness :
  model (self (Stub.world Stub.diet)) = Some Stub.diet_model ∧
  resultDataModel (self (Stub.world Stub.diet)) = Some {[ "cost" := "float" ]} ∧
  Optimizer.setOPLModel "Other.mod" None (Some ["maximize n;"]) (Stub.world Stub.diet)
  = (Raise (ValueError "model has already been set"), Stub.world Stub.diet) ∧
  Optimizer.setResultDataModel (Some ∅) (Stub.world Stub.diet)
  = (Raise (ValueError "results data model has already been defined"), Stub.world Stub.diet).
Proof.
  destruct (set_twice_fails (Stub.world Stub.diet)) as [Hmodel Hschema].
  split; [reflexivity |]. split; [reflexivity |]. split.
  - exact (Hmodel Stub.diet_model eq_refl "Other.mod" None (Some ["maximize n;"])).
  - exact (Hschema {[ "cost" := "float" ]} eq_refl (Some ∅)).
Defined.

Lemma attachData_stem_error_witness :
  Scenario.twins ≠ [] ∧
  @Optimizer.attachData Stub.processed (Some Scenario.twins) (Stub.world Stub.diet)
  = (Raise (NameError "os"), Stub.world Stub.diet).
Proof.
  split; [done |].
  destruct (@attachData_stem_error Stub.processed Scenario.twins (Stub.world Stub.diet))
    as [Hrun _]; [done |].
  exact Hrun.
Defined.




(** C2, the code at a failed job: the model is literal text, nothing is
    attached, the service reports FAILED with the message [infeasible.].
    The call prints the failure, closes the stream of the model, deletes the
    job, and ends in the UnboundLocalError of its [return solution]. *)
Theorem solve_failed_raises :
  ∃ w',
    @Optimizer.solve Stub.failed None "" (Stub.world Stub.diet)
    = (Raise (UnboundLocalError "solution"), w') ∧
    stdout w' = ["Failed infeasible."] ∧
    closed w' = [0] ∧ deleted w' = ["job-1"] ∧ history (self w') = [].
Proof.
  eexists. split; [vm_compute; reflexivity |]. by vm_compute.
Qed.


Lemma solve_empty_model_witness :
  model (self (Stub.world Stub.hollow)) = Some Stub.hollow_model ∧
  ModelSource.isEmpty Stub.hollow_model = true ∧
  @Optimizer.solve Stub.processed None "" (Stub.world Stub.hollow)
  = (Raise (ValueError "model source is empty"), Stub.world Stub.hollow) ∧
  submitted (@Optimizer.solve Stub.processed None "" (Stub.world Stub.hollow)).2
  = submitted (Stub.world Stub.hollow).
Proof.
  split; [reflexivity |]. split; [reflexivity |].
  exact (@solve_empty_model Stub.processed None "" (Stub.world Stub.hollow)
           Stub.hollow_model eq_refl eq_refl).
Defined.

Lemma solveStatus_frame_witness :
  @Optimizer.init Stub.processed "Diet" (Some Stub.diet_model) (Some {[ "cost" := "float" ]})
    (Some ("https://api", "key")) [] (Stub.world Stub.diet)
  = (Ok (), Stub.world Stub.diet) ∧
  solveStatus (self (Stub.world Stub.diet)) = Enumerant UNKNOWN ∧
  solveStatus (self (@Optimizer.solve Stub.failed None "" (Stub.world Stub.diet)).2)
  = Enumerant UNKNOWN ∧
  solveStatus (self (@Optimizer.solve Stub.processed None "" (Stub.world Stub.diet)).2)
  = Reported (Some "OPTIMAL_SOLUTION") ∧
  solveStatus (self (@Optimizer.solve Stub.silent None "" (Stub.world Stub.diet)).2)
  = Reported None.
Proof.
  assert (@Optimizer.init Stub.processed "Diet" (Some Stub.diet_model)
            (Some {[ "cost" := "float" ]}) (Some ("https://api", "key")) []
            (Stub.world Stub.diet)
          = (Ok (), Stub.world Stub.diet)) as Hinit by (vm_compute; reflexivity).
  split; [exact Hinit |]. split.
  - destruct (@solveStatus_frame Stub.processed None "" (Stub.world Stub.diet)) as [_ Hnew].
    exact (Hnew _ _ _ _ _ _ Hinit).
  - split; [| split].
    + destruct (@solveStatus_frame Stub.failed None "" (Stub.world Stub.diet)) as [-> _].
      vm_compute. reflexivity.
    + destruct (@solveStatus_frame Stub.processed None "" (Stub.world Stub.diet)) as [-> _].
      vm_compute. reflexivity.
    + destruct (@solveStatus_frame Stub.silent None "" (Stub.world Stub.diet)) as [-> _].
      vm_compute. reflexivity.
Defined.

(** * Further properties of the code *)

(** ** ModelSource and the configuration methods *)

Section further_configuration.
Context `{Env}.
Import ModelSourceObject.

(** The constructor lets no empty list through. *)
Lemma init_truthy (n : string) (d : option (list URL)) (t : option (list string))
    (m : ModelSourceObject.t) :
  ModelSource.init n d t = Ok m →
  m = mk n d t ∧ truthy d = bool_decide (d ≠ None) ∧ truthy t = bool_decide (t ≠ None).
Proof.
  unfold ModelSource.init.
  destruct (bool_decide (d = Some [])) eqn:Hd; [discriminate |].
  destruct (bool_decide (t = Some [])) eqn:Ht; [discriminate |].
  apply bool_decide_eq_false in Hd, Ht.
  intros [= <-]. split; [done |].
  split; [destruct d as [[|? ?]|] | destruct t as [[|? ?]|]]; try done; symmetry.
  all: first [by apply bool_decide_eq_true_2 | by apply bool_decide_eq_false_2; intros []].
Qed.

(** X1: for a model source built by the constructor, isEmpty tells whether
    toStream raises [model source is empty], and creates nothing.  A source
    that is not empty is materialised only when it was built from texts
    alone: toStream then creates one stream object, whose bytes are the
    texts in order.  When references were given, toStream raises the
    AssertionError of [urllib.FancyURLopener] and creates nothing. *)
Theorem toStream_isEmpty (n : string) (d : option (list URL)) (t : option (list string))
    (m : ModelSourceObject.t) (w : World) :
  ModelSource.init n d t = Ok m →
  if ModelSource.isEmpty m
  then ModelSource.toStream m w = (Raise (ValueError "model source is empty"), w)
  else match d with
       | Some _ =>
           ModelSource.toStream m w
           = (Raise (AssertionError "proxies must be a mapping"), w)
       | None =>
           ∃ i w', ModelSource.toStream m w = (Ok i, w') ∧
             heap w' = heap w ++ [StringIO (String.concat "" (default [] t))] ∧
             stream_bytes w' i = Some (concat_fragments (default [] t))
       end.
Proof.
  intros Hinit. apply init_truthy in Hinit as (-> & Hd & Ht).
  rewrite toStream_run. unfold ModelSource.isEmpty. cbn [dotMods modelText].
  rewrite Hd, Ht. destruct d as [d|], t as [t|]; cbn [bool_decide andb].
  all: repeat case_bool_decide; try done; cbn [andb].
  exists (length (heap w)), (new_stream (StringIO (String.concat "" t)) w).2.
  split; [reflexivity |]. split; [reflexivity |].
  by rewrite new_stream_bytes, concat_empty_fragments.
Qed.

(** X2: on an orchestrator without a model, setOPLModel stores the model
    source built from its arguments and changes nothing else, and from then
    on every setOPLModel raises; but when one of the lists is given empty it
    raises [argument cannot be empty] and the orchestrator is left as it
    was, still without a model. *)
Theorem setOPLModel_first (n : string) (d : option (list URL)) (t : option (list string))
    (w : World) :
  model (self w) = None →
  (d ≠ Some [] → t ≠ Some [] →
     Optimizer.setOPLModel n d t w
     = (Ok (), mkWorld (Optimizer.with_model (Some (mk n d t)) (self w)) (heap w) (closed w)
                       (submitted w) (deleted w) (stdout w)) ∧
     ∀ n' d' t', Optimizer.setOPLModel n' d' t' (Optimizer.setOPLModel n d t w).2
                 = (Raise (ValueError "model has already been set"),
                    (Optimizer.setOPLModel n d t w).2))
  ∧ (d = Some [] ∨ t = Some [] →
     Optimizer.setOPLModel n d t w = (Raise (ValueError "argument cannot be empty"), w)).
Proof.
  intros Hnone. split.
  - intros Hd Ht.
    assert (Optimizer.setOPLModel n d t w
            = (Ok (), mkWorld (Optimizer.with_model (Some (mk n d t)) (self w)) (heap w)
                              (closed w) (submitted w) (deleted w) (stdout w))) as Hrun.
    { unfold Optimizer.setOPLModel, bind at 1, get_self at 1. rewrite Hnone.
      unfold ModelSource.init, bind, lift. by rewrite !bool_decide_eq_false_2 by done. }
    split; [exact Hrun |]. intros n' d' t'. rewrite Hrun. reflexivity.
  - unfold Optimizer.setOPLModel, bind at 1, get_self at 1. rewrite Hnone.
    unfold ModelSource.init, bind, lift. intros [-> | ->].
    + reflexivity.
    + case_bool_decide; reflexivity.
Qed.

(** X3: setOPLModel with a name and no fragment list succeeds, and leaves
    an orchestrator on which every solve call raises [model source is
    empty] before anything is submitted. *)
Theorem setOPLModel_without_fragments (n : string) (w w' : World)
    (inputData : option Collector) (solutionId : string) :
  model (self w) = None →
  Optimizer.setOPLModel n None None w = (Ok (), w') →
  Optimizer.solve inputData solutionId w'
  = (Raise (ValueError "model source is empty"), w').
Proof.
  intros Hnone. unfold Optimizer.setOPLModel, bind at 1, get_self at 1. rewrite Hnone.
  intros [= <-]. eapply solve_not_assembled. reflexivity.
Qed.

(** X4: on an orchestrator without a result data model, setResultDataModel
    stores its argument and changes nothing else.  The guard only sees a
    value that is not [None]: after storing a dict every further call
    raises, after storing [None] the next call still succeeds. *)
Theorem setResultDataModel_first (s : option Schema) (w : World) :
  resultDataModel (self w) = None →
  Optimizer.setResultDataModel s w
  = (Ok (), mkWorld (Optimizer.with_resultDataModel s (self w)) (heap w) (closed w)
                    (submitted w) (deleted w) (stdout w)) ∧
  ∀ s', (Optimizer.setResultDataModel s' (Optimizer.setResultDataModel s w).2).1
        = match s with
          | Some _ => Raise (ValueError "results data model has already been defined")
          | None => Ok ()
          end.
Proof.
  intros Hnone. unfold Optimizer.setResultDataModel, bind, get_self. rewrite Hnone.
  split; [reflexivity |]. intros s'. cbn. by destruct s.
Qed.

(** X5: attachData succeeds exactly when it is given [None] or an empty
    list; on a list with a reference it raises at the derivation of the
    first stem.  In every case it leaves the attachment dict empty and
    nothing else of the world changed. *)
Theorem attachData_succeeds_iff (a : option (list URL)) (w : World) :
  (Optimizer.attachData a w).2 = put_attachments ∅ w ∧
  ((Optimizer.attachData a w).1 = Ok () ↔ default [] a = []).
Proof.
  rewrite attachData_run. split; [reflexivity |]. cbn [fst].
  destruct (default [] a); split; done.
Qed.

(** X7: what the constructor does.  Without references and with
    credentials it succeeds: the attributes hold the arguments, the dict,
    the registry and the history are empty and the solve status is UNKNOWN.
    With a reference it raises at the derivation of the first stem,
    whatever the credentials; without references and without credentials it
    raises a TypeError. *)
Theorem init_outcome (problemName : string) (m : option ModelSourceObject.t)
    (r : option Schema) (c : option (string * string)) (l : list URL) (w : World) :
  (l = [] → ∀ cr, c = Some cr →
     Optimizer.init problemName m r c l w
     = (Ok (), mkWorld (mkOptimizer problemName m r ∅ [] [] (Some cr) (Enumerant UNKNOWN)
                                    (jobid (self w)))
                       (heap w) (closed w) (submitted w) (deleted w) (stdout w)))
  ∧ (l = [] → c = None →
     ∃ msg, (Optimizer.init problemName m r c l w).1 = Raise (TypeError msg))
  ∧ (l ≠ [] → (Optimizer.init problemName m r c l w).1 = Raise stem_error).
Proof.
  split; [| split].
  - intros -> cr ->. reflexivity.
  - intros -> ->. by eexists.
  - intros Hl. unfold Optimizer.init, bind at 1, set_self at 1. unfold bind at 1.
    rewrite attachData_run. cbn [default from_option id]. by destruct l.
Qed.
End further_configuration.

(** ** What a solve call keeps *)

Section further_solve.
Context `{Env}.

Ltac prefix_goals :=
  unfold grows, same_configuration, extend;
  cbn [self heap closed submitted deleted stdout
       name model resultDataModel attachments streamsRegistry history credentials
       solveStatus jobid Optimizer.with_jobid Optimizer.with_streamsRegistry
       Optimizer.with_history Optimizer.with_solveStatus];
  repeat split; repeat (apply prefix_app_r); reflexivity.

Lemma grows_refl (w : World) : grows w w.
Proof. prefix_goals. Qed.

(** A solve call continues the world it starts in, however it ends. *)
Lemma solve_grows (d : option Collector) (sid : string) (w : World) :
  grows w (Optimizer.solve d sid w).2.
Proof.
  destruct (Optimizer.assemble_inputs d w) as [[inputs|e] w1] eqn:Ha.
  2: { rewrite (solve_not_assembled d sid w w1 e Ha). cbn [snd].
       destruct (assemble_inputs_raise d w w1 e Ha) as [->|[s ->]]; prefix_goals. }
  apply assemble_inputs_ok in Ha as Hw1. destruct Hw1 as (streams & ids & _ & ->).
  unfold Optimizer.solve, bind. rewrite Ha. unfold Optimizer.execute.
  destruct (svc_execute _) as [response|msg]; [| prefix_goals].
  unfold Optimizer.get_jobid, Optimizer.get_execution_status, call, bind.
  cbn [set_self get_self self jobid Optimizer.with_jobid ret].
  destruct (svc_get_execution_status _) as [status|msg]; [| prefix_goals].
  unfold Optimizer.map_results.
  destruct status; try destruct (r_getJob response) as [info|].
  all: run_results.
  all: prefix_goals.
Qed.

Lemma uploads_explicit (w : World) (m : ModelSourceObject.t) (d : option Collector)
    (ids : list StreamId) :
  Optimizer.uploads (extend w (opened_streams m d) ids) (named_inputs (length (heap w)) m d)
  = expected_uploads m d.
Proof.
  unfold Optimizer.uploads, named_inputs, expected_uploads, opened_streams, stream_bytes,
    model_body.
  cbn [extend heap]. rewrite fmap_cons. f_equal.
  - rewrite list_lookup_middle by done. cbn. by rewrite concat_empty_fragments.
  - destruct d as [c|]; [| done]. cbn [fmap list_fmap]. f_equal. f_equal.
    rewrite lookup_app_r by lia.
    replace (length (heap w) + 2 - length (heap w)) with 2 by lia. done.
Qed.

Lemma opened_streams_length (m : ModelSourceObject.t) (d : option Collector) :
  length (opened_streams m d) = 1 + match d with Some _ => 2 | None => 0 end.
Proof. by destruct d. Qed.

(** A solve call that the service answers, stream by stream. *)
Lemma solve_streams (d : option Collector) (sid : string) (w : World)
    (response : Response) (status : JobExecutionStatus) :
  service_answers d w = Some (response, status) →
  ∃ m, model (self w) = Some m ∧ text_model m = true ∧ attachments (self w) = ∅ ∧
    let opened := length (opened_streams m d)
                  + match status with PROCESSED => 1 | _ => 0 end in
    let w' := (Optimizer.solve d sid w).2 in
    streamsRegistry (self w') = streamsRegistry (self w) ++ seq (length (heap w)) opened ∧
    length (heap w') = length (heap w) + opened ∧
    submitted w' = submitted w ++ [expected_uploads m d].
Proof.
  unfold service_answers.
  destruct (Optimizer.assemble_inputs d w) as [[inputs|e] w1] eqn:Ha; [| discriminate].
  destruct (assemble_inputs_explicit d w w1 inputs Ha) as (m & Hm & Htext & Hatt & -> & ->).
  rewrite uploads_explicit.
  destruct (svc_execute (expected_uploads m d)) as [resp|] eqn:He; [| discriminate].
  destruct (svc_get_execution_status (r_jobid resp)) as [st|] eqn:Hs; [| discriminate].
  intros [= -> ->]. exists m. do 3 (split; [done |]).
  unfold Optimizer.solve, bind. rewrite Ha. unfold Optimizer.execute.
  rewrite uploads_explicit, He.
  unfold Optimizer.get_jobid, Optimizer.get_execution_status, call, bind.
  cbn [set_self get_self self jobid Optimizer.with_jobid ret]. rewrite Hs.
  unfold Optimizer.map_results.
  destruct status; try destruct (r_getJob response) as [info|].
  all: run_results.
  all: cbn -[opened_streams expected_uploads seq length Nat.add].
  all: rewrite ?length_app, ?Nat.add_0_r, ?seq_app, ?app_assoc; cbn [seq length].
  all: try (split; [done | split; [lia | done]]).
Qed.

(** X8: a solve call on an orchestrator with a model calls [execute] once
    when the model was built from texts alone and nothing is attached,
    whatever the service then does, and submits in this order: the model,
    under the name of the model source, with the concatenated texts as
    bytes, and, when variable input is given, its JSON text under the name
    of the input collector followed by [.json].  In every other case the
    call ends before anything is submitted. *)
Theorem solve_submits (d : option Collector) (sid : string) (w : World)
    (m : ModelSourceObject.t) :
  model (self w) = Some m →
  submitted (Optimizer.solve d sid w).2
  = submitted w ++ (if text_model m && bool_decide (attachments (self w) = ∅)
                    then [expected_uploads m d] else []).
Proof.
  intros Hm.
  destruct (Optimizer.assemble_inputs d w) as [[inputs|e] w1] eqn:Ha.
  - destruct (assemble_inputs_explicit d w w1 inputs Ha)
      as (m' & Hm' & Htext & Hatt & -> & ->).
    assert (m' = m) as -> by congruence.
    rewrite Htext, bool_decide_eq_true_2 by done. cbn [andb].
    unfold Optimizer.solve, bind. rewrite Ha. unfold Optimizer.execute.
    rewrite uploads_explicit.
    destruct (svc_execute _) as [response|msg]; [| reflexivity].
    unfold Optimizer.get_jobid, Optimizer.get_execution_status, call, bind.
    cbn [set_self get_self self jobid Optimizer.with_jobid ret].
    destruct (svc_get_execution_status _) as [status|msg]; [| reflexivity].
    unfold Optimizer.map_results.
    destruct status; try destruct (r_getJob response) as [info|].
    all: run_results.
    all: reflexivity.
  - rewrite (solve_not_assembled d sid w w1 e Ha). cbn [snd].
    rewrite assemble_inputs_run, Hm in Ha. unfold text_model.
    destruct (truthy (ModelSourceObject.dotMods m)); cbn [negb andb].
    { injection Ha as _ <-. by rewrite app_nil_r. }
    destruct (truthy (ModelSourceObject.modelText m)); cbn [andb].
    2: { injection Ha as _ <-. by rewrite app_nil_r. }
    destruct (bool_decide (attachments (self w) = ∅)); [discriminate |].
    injection Ha as _ <-. cbn [extend submitted]. by rewrite app_nil_r.
Qed.

(** X9: a solve call on an orchestrator without a model raises [A model
    attachment must be provided to the optimizer] and leaves the world as
    it was: no stream is created, nothing is submitted. *)
Theorem solve_without_model (d : option Collector) (sid : string) (w : World) :
  model (self w) = None →
  Optimizer.solve d sid w
  = (Raise (ValueError "A model attachment must be provided to the optimizer"), w).
Proof.
  intros Hnone. apply solve_not_assembled.
  rewrite assemble_inputs_run. by rewrite Hnone.
Qed.

(** X10: in a solve call that the service answers, the identities recorded
    in the registry are the next free ones, in order, one for each stream
    object created: one for the model, two when variable input is given,
    and one more for the solution when the status is PROCESSED. *)
Theorem solve_registry_growth (d : option Collector) (sid : string) (w : World)
    (response : Response) (status : JobExecutionStatus) :
  service_answers d w = Some (response, status) →
  let opened := 1 + match d with Some _ => 2 | None => 0 end
                + match status with PROCESSED => 1 | _ => 0 end in
  streamsRegistry (self (Optimizer.solve d sid w).2)
  = streamsRegistry (self w) ++ seq (length (heap w)) opened ∧
  length (heap (Optimizer.solve d sid w).2) = length (heap w) + opened.
Proof.
  intros Hans.
  destruct (solve_streams d sid w response status Hans) as (m & _ & _ & _ & Hstreams).
  cbn zeta in Hstreams. rewrite opened_streams_length in Hstreams.
  destruct Hstreams as (Hreg & Hheap & _). by split.
Qed.

(** X11: a solve call, however it ends, leaves the name, the model, the
    result data model, the attachments and the credentials as they were,
    and only adds at the end of the history, of the registry, of the stream
    objects and of the traces of close, execute, delete_job and print
    calls: nothing recorded before the call is removed or reordered. *)
Theorem solve_continues (d : option Collector) (sid : string) (w : World) :
  grows w (Optimizer.solve d sid w).2.
Proof. apply solve_grows. Qed.

(** X12: a solve call that the service answers calls [close()] only when
    the status is PROCESSED, or FAILED on a response that has [getJob]: it
    then closes every entry of the registry, in registry order, first the
    entries the registry held before the call, which earlier calls have
    closed already, then the entries of the call.  For any other answer no
    stream is closed. *)
Theorem solve_closes_again (d : option Collector) (sid : string) (w : World)
    (response : Response) (status : JobExecutionStatus) :
  service_answers d w = Some (response, status) →
  ∃ ids, streamsRegistry (self (Optimizer.solve d sid w).2) = streamsRegistry (self w) ++ ids ∧
    closed (Optimizer.solve d sid w).2
    = closed w ++ (if reaches_cleanup response status
                   then streamsRegistry (self w) ++ ids else []).
Proof.
  intros Hans.
  destruct (solve_run d sid w response status Hans)
    as (ids & w' & _ & Hrun & Hreg & Hclosed & _).
  exists ids. rewrite Hrun. cbn [snd]. split; [exact Hreg |].
  by rewrite Hclosed, Hreg.
Qed.

(** X13: two solve calls in a row, both PROCESSED, leave the history of
    the orchestrator followed by the result of the first call and then the
    result of the second, each named after the problem and its own
    solution identifier; both jobs have been deleted, in call order, and
    the job identifier kept is the one of the second call. *)
Theorem solve_twice (d1 d2 : option Collector) (sid1 sid2 : string) (w : World)
    (r1 r2 : Response) :
  service_answers d1 w = Some (r1, PROCESSED) →
  service_answers d2 (Optimizer.solve d1 sid1 w).2 = Some (r2, PROCESSED) →
  let w2 := (Optimizer.solve d2 sid2 (Optimizer.solve d1 sid1 w).2).2 in
  history (self w2) = history (self w) ++ [solution_of w r1 sid1; solution_of w r2 sid2] ∧
  deleted w2 = deleted w ++ [r_jobid r1; r_jobid r2] ∧
  jobid (self w2) = Some (r_jobid r2).
Proof.
  intros Hans1 Hans2. cbn zeta.
  pose proof (solve_grows d1 sid1 w) as ((Hname & _ & Hschema & _) & _).
  destruct (solve_run d1 sid1 w r1 PROCESSED Hans1)
    as (ids1 & w1 & _ & Hrun1 & _ & _ & Hdel1 & _ & Hhist1 & _).
  rewrite Hrun1 in Hans2, Hname, Hschema |- *. cbn [snd] in *.
  destruct (solve_run d2 sid2 w1 r2 PROCESSED Hans2)
    as (ids2 & w2 & _ & Hrun2 & _ & _ & Hdel2 & Hjob2 & Hhist2 & _).
  rewrite Hrun2. cbn [snd]. rewrite Hhist2, Hhist1, Hdel2, Hdel1, Hjob2, <- !app_assoc.
  unfold solution_of. by rewrite Hname, Hschema.
Qed.

(** X14: what a solve call that the service answers prints: one line when
    the status is FAILED and the response has [getJob], [Failed ] followed
    by the failure message, or by nothing when the job has no failure
    information; nothing in every other case.  The line [Job Status: ...]
    is never printed. *)
Theorem solve_prints (d : option Collector) (sid : string) (w : World)
    (response : Response) (status : JobExecutionStatus) :
  service_answers d w = Some (response, status) →
  stdout (Optimizer.solve d sid w).2
  = stdout w ++ match status, r_getJob response with
                | FAILED, Some (Some message) => ["Failed " +:+ message]
                | FAILED, Some None => ["Failed " +:+ ""]
                | _, _ => []
                end.
Proof.
  intros Hans.
  destruct (solve_run d sid w response status Hans)
    as (ids & w' & _ & Hrun & _ & _ & _ & _ & _ & _ & Hout).
  rewrite Hrun. cbn [snd]. rewrite Hout. unfold report_of.
  by destruct status, (r_getJob response) as [[message|]|].
Qed.

(** X15: in a solve call that the service answers with the status
    PROCESSED, every stream that was handed to the service as the file of a
    named input has been closed when the call ends. *)
Theorem solve_closes_inputs (d : option Collector) (sid : string) (w w1 : World)
    (inputs : list (string * StreamId)) (response : Response) :
  Optimizer.assemble_inputs d w = (Ok inputs, w1) →
  service_answers d w = Some (response, PROCESSED) →
  ∀ n i, (n, i) ∈ inputs → is_closed (Optimizer.solve d sid w).2 i.
Proof.
  intros Ha Hans n i Hin.
  destruct (assemble_inputs_explicit d w w1 inputs Ha) as (m & _ & _ & _ & -> & _).
  destruct (solve_streams d sid w response PROCESSED Hans)
    as (m' & _ & _ & _ & Hstreams).
  cbn zeta in Hstreams. destruct Hstreams as (Hreg & _).
  destruct (solve_run d sid w response PROCESSED Hans)
    as (ids & w' & _ & Hrun & _ & Hclosed & _).
  rewrite Hrun in Hreg |- *. cbn [snd] in *. unfold is_closed.
  rewrite Hclosed. apply elem_of_app. right. cbn [reaches_cleanup].
  rewrite Hreg. apply elem_of_app. right.
  rewrite opened_streams_length. apply elem_of_seq.
  unfold named_inputs in Hin. apply elem_of_cons in Hin as [Hin|Hin].
  { injection Hin as _ ->. lia. }
  destruct d as [c|]; [| by apply elem_of_nil in Hin].
  apply list_elem_of_singleton in Hin. injection Hin as _ ->. lia.
Qed.
End further_solve.

(** ** The further properties on the stub collaborators *)

Lemma toStream_isEmpty_witness :
  ModelSource.init "Diet.mod" None (Some ["param n; ..."]) = Ok Stub.diet_model ∧
  ∃ i w', ModelSource.toStream Stub.diet_model (Stub.world Stub.diet) = (Ok i, w') ∧
    heap w' = [StringIO "param n; ..."] ∧
    stream_bytes w' i = Some "param n; ...".
Proof.
  split; [reflexivity |].
  exact (toStream_isEmpty "Diet.mod" None (Some ["param n; ..."])
           Stub.diet_model (Stub.world Stub.diet) eq_refl).
Defined.

Lemma setOPLModel_first_witness :
  model (self (Stub.world Scenario.bare)) = None ∧
  Optimizer.setOPLModel "Diet.mod" None (Some ["param n; ..."]) (Stub.world Scenario.bare)
  = (Ok (), mkWorld (Optimizer.with_model (Some Stub.diet_model) Scenario.bare) [] [] [] [] []) ∧
  Optimizer.setOPLModel "Diet.mod" (Some []) None (Stub.world Scenario.bare)
  = (Raise (ValueError "argument cannot be empty"), Stub.world Scenario.bare).
Proof.
  split; [reflexivity |]. split.
  - destruct (setOPLModel_first "Diet.mod" None (Some ["param n; ..."])
                (Stub.world Scenario.bare) eq_refl) as [Hfirst _].
    by destruct Hfirst as [Hrun _].
  - destruct (setOPLModel_first "Diet.mod" (Some []) None
                (Stub.world Scenario.bare) eq_refl) as [_ Hempty].
    apply Hempty. by left.
Defined.

Lemma setOPLModel_without_fragments_witness :
  model (self (Stub.world Scenario.bare)) = None ∧
  Optimizer.setOPLModel "Diet.mod" None None (Stub.world Scenario.bare)
  = (Ok (), Stub.world (Optimizer.with_model
                          (Some (ModelSourceObject.mk "Diet.mod" None None)) Scenario.bare)) ∧
  @Optimizer.solve Stub.processed None ""
    (Stub.world (Optimizer.with_model
                   (Some (ModelSourceObject.mk "Diet.mod" None None)) Scenario.bare))
  = (Raise (ValueError "model source is empty"),
     Stub.world (Optimizer.with_model
                   (Some (ModelSourceObject.mk "Diet.mod" None None)) Scenario.bare)).
Proof.
  split; [reflexivity |]. split; [reflexivity |].
  exact (@setOPLModel_without_fragments Stub.processed "Diet.mod"
           (Stub.world Scenario.bare) _ None "" eq_refl eq_refl).
Defined.

Lemma setResultDataModel_first_witness :
  resultDataModel (self (Stub.world Scenario.bare)) = None ∧
  Optimizer.setResultDataModel None (Stub.world Scenario.bare)
  = (Ok (), Stub.world Scenario.bare) ∧
  (Optimizer.setResultDataModel (Some {[ "cost" := "float" ]})
     (Optimizer.setResultDataModel None (Stub.world Scenario.bare)).2).1 = Ok ().
Proof.
  destruct (setResultDataModel_first None (Stub.world Scenario.bare) eq_refl)
    as [Hrun Hnext].
  split; [reflexivity |]. split; [exact Hrun |].
  exact (Hnext (Some {[ "cost" := "float" ]})).
Defined.

Lemma init_outcome_witness :
  Scenario.references ≠ [] ∧
  (@Optimizer.init Stub.processed "Diet" (Some Stub.diet_model)
     (Some {[ "cost" := "float" ]}) (Some ("https://api", "key")) Scenario.references
     (Stub.world Scenario.bare)).1
  = Raise (NameError "os").
Proof.
  assert (Scenario.references ≠ []) as Hrefs by discriminate.
  split; [exact Hrefs |].
  destruct (@init_outcome Stub.processed "Diet" (Some Stub.diet_model)
              (Some {[ "cost" := "float" ]}) (Some ("https://api", "key"))
              Scenario.references (Stub.world Scenario.bare)) as (_ & _ & Hraise).
  exact (Hraise Hrefs).
Defined.

Lemma solve_submits_witness :
  model (self (Stub.world Stub.diet)) = Some Stub.diet_model ∧
  submitted (@Optimizer.solve Stub.processed (Some Scenario.columns) ""
               (Stub.world Stub.diet)).2
  = [ [("Diet.mod", "param n; ..."); ("DietColumns.json", "{}")] ].
Proof.
  split; [reflexivity |].
  rewrite (@solve_submits Stub.processed (Some Scenario.columns) ""
             (Stub.world Stub.diet) Stub.diet_model eq_refl).
  vm_compute. reflexivity.
Defined.

Lemma solve_without_model_witness :
  model (self (Stub.world Scenario.bare)) = None ∧
  @Optimizer.solve Stub.processed None "" (Stub.world Scenario.bare)
  = (Raise (ValueError "A model attachment must be provided to the optimizer"),
     Stub.world Scenario.bare).
Proof.
  split; [reflexivity |].
  exact (@solve_without_model Stub.processed None "" (Stub.world Scenario.bare) eq_refl).
Defined.

Lemma solve_registry_growth_witness :
  @service_answers Stub.processed (Some Scenario.columns) (Stub.world Stub.diet)
  = Some (Stub.response, PROCESSED) ∧
  streamsRegistry (self (@Optimizer.solve Stub.processed (Some Scenario.columns) ""
                           (Stub.world Stub.diet)).2)
  = [0; 1; 2; 3] ∧
  length (heap (@Optimizer.solve Stub.processed (Some Scenario.columns) ""
                  (Stub.world Stub.diet)).2) = 4.
Proof.
  assert (@service_answers Stub.processed (Some Scenario.columns) (Stub.world Stub.diet)
          = Some (Stub.response, PROCESSED)) as Hans by (vm_compute; reflexivity).
  split; [exact Hans |].
  destruct (@solve_registry_growth Stub.processed (Some Scenario.columns) ""
              (Stub.world Stub.diet) Stub.response PROCESSED Hans) as [Hreg Hheap].
  split; [rewrite Hreg | rewrite Hheap]; vm_compute; reflexivity.
Defined.

Lemma solve_closes_again_witness :
  @service_answers Stub.running None (Stub.world Stub.diet) = Some (Stub.response, RUNNING) ∧
  ∃ ids,
    streamsRegistry (self (@Optimizer.solve Stub.running None "" (Stub.world Stub.diet)).2)
    = streamsRegistry (self (Stub.world Stub.diet)) ++ ids ∧
    closed (@Optimizer.solve Stub.running None "" (Stub.world Stub.diet)).2
    = closed (Stub.world Stub.diet) ++ [].
Proof.
  assert (@service_answers Stub.running None (Stub.world Stub.diet)
          = Some (Stub.response, RUNNING)) as Hans by (vm_compute; reflexivity).
  split; [exact Hans |].
  exact (@solve_closes_again Stub.running None "" (Stub.world Stub.diet)
           Stub.response RUNNING Hans).
Defined.

Lemma solve_twice_witness :
  @service_answers Stub.processed None (Stub.world Stub.diet)
  = Some (Stub.response, PROCESSED) ∧
  @service_answers Stub.processed (Some Scenario.columns)
    (@Optimizer.solve Stub.processed None "1" (Stub.world Stub.diet)).2
  = Some (Stub.response, PROCESSED) ∧
  c_name <$> history (self (@Optimizer.solve Stub.processed (Some Scenario.columns) "2"
                              (@Optimizer.solve Stub.processed None "1"
                                 (Stub.world Stub.diet)).2).2)
  = ["Diet" +:+ "Result" +:+ "1"; "Diet" +:+ "Result" +:+ "2"] ∧
  deleted (@Optimizer.solve Stub.processed (Some Scenario.columns) "2"
             (@Optimizer.solve Stub.processed None "1" (Stub.world Stub.diet)).2).2
  = ["job-1"; "job-1"].
Proof.
  assert (@service_answers Stub.processed None (Stub.world Stub.diet)
          = Some (Stub.response, PROCESSED)) as Hans1 by (vm_compute; reflexivity).
  assert (@service_answers Stub.processed (Some Scenario.columns)
            (@Optimizer.solve Stub.processed None "1" (Stub.world Stub.diet)).2
          = Some (Stub.response, PROCESSED)) as Hans2 by (vm_compute; reflexivity).
  split; [exact Hans1 |]. split; [exact Hans2 |].
  destruct (@solve_twice Stub.processed None (Some Scenario.columns) "1" "2"
              (Stub.world Stub.diet) Stub.response Stub.response Hans1 Hans2)
    as (Hhist & Hdel & _).
  split; [rewrite Hhist | rewrite Hdel]; reflexivity.
Defined.

Lemma solve_prints_witness :
  @service_answers Stub.running None (Stub.world Stub.diet) = Some (Stub.response, RUNNING) ∧
  stdout (@Optimizer.solve Stub.running None "" (Stub.world Stub.diet)).2 = [].
Proof.
  assert (@service_answers Stub.running None (Stub.world Stub.diet)
          = Some (Stub.response, RUNNING)) as Hans by (vm_compute; reflexivity).
  split; [exact Hans |].
  exact (@solve_prints Stub.running None "" (Stub.world Stub.diet) Stub.response RUNNING Hans).
Defined.

Lemma solve_closes_inputs_witness :
  ∃ inputs w1,
    @Optimizer.assemble_inputs Stub.processed (Some Scenario.columns)
      (Stub.world Stub.diet) = (Ok inputs, w1) ∧
    @service_answers Stub.processed (Some Scenario.columns) (Stub.world Stub.diet)
    = Some (Stub.response, PROCESSED) ∧
    ∀ n i, (n, i) ∈ inputs →
      is_closed (@Optimizer.solve Stub.processed (Some Scenario.columns) ""
                   (Stub.world Stub.diet)).2 i.
Proof.
  eexists _, _. split; [vm_compute; reflexivity |].
  assert (@service_answers Stub.processed (Some Scenario.columns) (Stub.world Stub.diet)
          = Some (Stub.response, PROCESSED)) as Hans by (vm_compute; reflexivity).
  split; [exact Hans |].
  eapply (@solve_closes_inputs Stub.processed (Some Scenario.columns) ""
            (Stub.world Stub.diet) _ _ Stub.response); [| exact Hans].
  vm_compute. reflexivity.
Defined.
